(** * Z-Fusion launcher scripts: menu derivation and provisioning pipelines

    A shallow embedding of the Pinokio launcher scripts of the repository:

    - [Pinokio.menu]      -- the [menu] function of [src/pinokio.js];
    - [PinokioQuick.menu] -- the [menu] function of [src/unnamed/part_002],
                             the variant that also tracks [quick_update.js];
    - [Install.run]       -- the [run] array of [src/unnamed/part_000];
    - [Update.run]        -- the [run] array of [src/unnamed/part_001].

    The menu functions read the launcher through the [info] object and the
    wall clock through [Date.now()]; both are explicit here.  A JavaScript
    property read on [undefined] throws, so the menus live in a state and
    exception monad: the state is the clock together with the number of
    readings taken so far, the exception is the thrown error.  The functions
    are [async] without ever awaiting: what is modelled is the value their
    promise resolves to, a throw being its rejection. *)

From Stdlib Require Import String Ascii List ZArith Bool Lia.
From Stdlib Require Import DecimalString DecimalZ.
From ExtLib Require Import Structures.Monad Structures.MonadState Structures.MonadExc.
From ExtLib Require Import Data.Monads.StateMonad Data.Monads.EitherMonad.
Import ListNotations.
Import MonadNotation.
Local Open Scope monad_scope.
Local Open Scope string_scope.

#[local] Existing Instance Monad_stateT.
#[local] Set Warnings "-register-all".

(** ** JavaScript values used by the scripts *)

(** A menu entry is an object literal with the optional properties
    [default], [href], [menu] and [confirm]; an absent property is [None]. *)
Inductive MenuItem : Type := MkItem {
  default : option bool;
  icon    : string;
  text    : string;
  href    : option string;
  menu    : option (list MenuItem);
  confirm : option string
}.

(** The object returned by [info.local(name)]: the variables a script has
    published, of which the menus read only [url]. *)
Record Local : Type := MkLocal { url : option string }.

(** The [info] argument of [menu]: [info.exists], [info.running] and
    [info.local].  [info.local] yields [undefined] ([None]) for a script that
    has published nothing. *)
Record Info : Type := MkInfo {
  exists_ : string -> bool;
  running : string -> bool;
  local   : string -> option Local
}.

(** JavaScript truthiness of a value that is [undefined] or a string: only a
    non-empty string is truthy. *)
Definition truthy (v : option string) : bool :=
  match v with
  | Some s => negb (s =? "")
  | None => false
  end.

(** String conversion as done by [+]: [undefined] prints as its name. *)
Definition to_str (v : option string) : string :=
  match v with
  | Some s => s
  | None => "undefined"
  end.

(** Decimal printing of an integral Number, as [+] does for the result of
    [Date.now()]: digits without leading zeros, a minus sign when negative. *)
Definition num_to_str (n : Z) : string :=
  NilZero.string_of_int (Z.to_int n).

(** ** The effects of [menu] *)

(** The clock: [now k] is what the [k]-th call of [Date.now()] returns in the
    evaluation at hand, [reads] counts the calls made so far. *)
Record World : Type := MkWorld {
  now   : nat -> Z;
  reads : nat
}.

Definition Js : Type -> Type := stateT World (sum string).

(** [Date.now()] *)
Definition Date_now : Js Z :=
  w <- get ;;
  put (MkWorld (now w) (S (reads w))) ;;
  ret (now w (reads w)).

(** [o.url]: a [TypeError] when [o] is [undefined]. *)
Definition get_url (o : option Local) : Js (option string) :=
  match o with
  | Some l => ret (url l)
  | None => raise "TypeError: Cannot read properties of undefined (reading 'url')"
  end.

(** [o && o.url], reduced to its truth value: the right operand is evaluated
    only when the left one is an object. *)
Definition and_url (o : option Local) : Js bool :=
  match o with
  | None => ret false
  | Some _ => u <- get_url o ;; ret (truthy u)
  end.

(** Running a computation against a clock, from its first reading. *)
Definition run_js {A} (c : Js A) (clk : nat -> Z) : string + (A * World) :=
  runStateT c (MkWorld clk 0).

(** The value a computation returns, [None] when it throws. *)
Definition returned {A} (c : Js A) (clk : nat -> Z) : option A :=
  match run_js c clk with
  | inr (a, _) => Some a
  | inl _ => None
  end.

(** ** [src/pinokio.js] *)

Module Pinokio.

(** The [running] object literal the function builds. *)
Record Running : Type := MkRunning {
  install : bool;
  start   : bool;
  update  : bool;
  reset   : bool
}.

Definition menu (info : Info) : Js (list MenuItem) :=
  let installed := exists_ info "app/env" in
  let running := {| install := running info "install.js";
                    start   := running info "start.js";
                    update  := running info "update.js";
                    reset   := running info "reset.js" |} in
  if install running then
    ret [ {| default := Some true; icon := "fa-solid fa-plug";
             text := "Installing"; href := Some "install.js";
             menu := None; confirm := None |} ]
  else if installed then
    if start running then
      let local_ := local info "start.js" in
      c <- and_url local_ ;;
      if (c : bool) then
        u <- get_url local_ ;;
        ret [ {| default := Some true; icon := "fa-solid fa-rocket";
                 text := "Open Web UI"; href := u;
                 menu := None; confirm := None |};
              {| default := None; icon := "fa-solid fa-terminal";
                 text := "Terminal"; href := Some "start.js";
                 menu := None; confirm := None |} ]
      else
        ret [ {| default := Some true; icon := "fa-solid fa-terminal";
                 text := "Terminal"; href := Some "start.js";
                 menu := None; confirm := None |} ]
    else if update running then
      ret [ {| default := Some true; icon := "fa-solid fa-terminal";
               text := "Updating"; href := Some "update.js";
               menu := None; confirm := None |} ]
    else if reset running then
      ret [ {| default := Some true; icon := "fa-solid fa-terminal";
               text := "Resetting"; href := Some "reset.js";
               menu := None; confirm := None |} ]
    else
      t1 <- Date_now ;;
      t2 <- Date_now ;;
      t3 <- Date_now ;;
      ret [ {| default := Some true; icon := "fa-solid fa-power-off";
               text := "Start";
               href := Some ("start.js?ts=" ++ num_to_str t1);
               menu := None; confirm := None |};
            {| default := None; icon := "fa-solid fa-power-off";
               text := "Start -w Optimization flags"; href := None;
               menu := Some [
                 {| default := None; icon := "fa-solid fa-power-off";
                    text := "<div><strong>Start</strong><br><div>+SageAttention2</div></div>";
                    href := Some ("start.js?sage=true&ts=" ++ num_to_str t2);
                    menu := None; confirm := None |};
                 {| default := None; icon := "fa-solid fa-power-off";
                    text := "<div><strong>Start</strong><br><div>+FlashAttention2</div></div>";
                    href := Some ("start.js?flash=true&ts=" ++ num_to_str t3);
                    menu := None; confirm := None |} ];
               confirm := None |};
            {| default := None; icon := "fa-solid fa-plug";
               text := "Update"; href := Some "update.js";
               menu := None; confirm := None |};
            {| default := None; icon := "fa-solid fa-plug";
               text := "Install"; href := Some "install.js";
               menu := None; confirm := None |};
            {| default := None; icon := "fa-regular fa-circle-xmark";
               text := "Reset"; href := Some "reset.js";
               menu := None;
               confirm := Some "Are you sure you wish to reset the app?" |} ]
  else
    ret [ {| default := Some true; icon := "fa-solid fa-plug";
             text := "Install"; href := Some "install.js";
             menu := None; confirm := None |} ].

End Pinokio.

(** ** [src/unnamed/part_002]: the menu that also tracks [quick_update.js] *)

Module PinokioQuick.

(** The [running] object literal the function builds. *)
Record Running : Type := MkRunning {
  install : bool;
  start   : bool;
  update  : bool;
  quick_update : bool;
  reset   : bool
}.

Definition menu (info : Info) : Js (list MenuItem) :=
  let installed := exists_ info "app/env" in
  let running := {| install := running info "install.js";
                    start   := running info "start.js";
                    update  := running info "update.js";
                    quick_update := running info "quick_update.js";
                    reset   := running info "reset.js" |} in
  if install running then
    ret [ {| default := Some true; icon := "fa-solid fa-plug";
             text := "Installing"; href := Some "install.js";
             menu := None; confirm := None |} ]
  else if installed then
    if start running then
      let local_ := local info "start.js" in
      c <- and_url local_ ;;
      if (c : bool) then
        u <- get_url local_ ;;
        t <- Date_now ;;
        ret [ {| default := Some true; icon := "fa-solid fa-rocket";
                 text := "Open Web UI";
                 href := Some (to_str u ++ "?ts=" ++ num_to_str t);
                 menu := None; confirm := None |};
              {| default := None; icon := "fa-solid fa-terminal";
                 text := "Terminal"; href := Some "start.js";
                 menu := None; confirm := None |} ]
      else
        ret [ {| default := Some true; icon := "fa-solid fa-terminal";
                 text := "Terminal"; href := Some "start.js";
                 menu := None; confirm := None |} ]
    else if update running || quick_update running then
      ret [ {| default := Some true; icon := "fa-solid fa-terminal";
               text := "Updating";
               href := Some (if update running then "update.js"
                             else "quick_update.js");
               menu := None; confirm := None |} ]
    else if reset running then
      ret [ {| default := Some true; icon := "fa-solid fa-terminal";
               text := "Resetting"; href := Some "reset.js";
               menu := None; confirm := None |} ]
    else
      t1 <- Date_now ;;
      t2 <- Date_now ;;
      t3 <- Date_now ;;
      ret [ {| default := Some true; icon := "fa-solid fa-power-off";
               text := "Start";
               href := Some ("start.js?ts=" ++ num_to_str t1);
               menu := None; confirm := None |};
            {| default := None; icon := "fa-solid fa-power-off";
               text := "Start -w Optimization flags"; href := None;
               menu := Some [
                 {| default := None; icon := "fa-solid fa-power-off";
                    text := "<div><strong>Start</strong><br><div>+SageAttention2</div></div>";
                    href := Some ("start.js?sage=true&ts=" ++ num_to_str t2);
                    menu := None; confirm := None |};
                 {| default := None; icon := "fa-solid fa-power-off";
                    text := "<div><strong>Start</strong><br><div>+FlashAttention2</div></div>";
                    href := Some ("start.js?flash=true&ts=" ++ num_to_str t3);
                    menu := None; confirm := None |} ];
               confirm := None |};
            {| default := None; icon := "fa-solid fa-plug";
               text := "Update"; href := None;
               menu := Some [
                 {| default := None; icon := "fa-solid fa-bolt";
                    text := "Quick Update (Git Pull only)";
                    href := Some "quick_update.js";
                    menu := None; confirm := None |};
                 {| default := None; icon := "fa-solid fa-plug";
                    text := "Full Update (Everything)";
                    href := Some "update.js";
                    menu := None; confirm := None |} ];
               confirm := None |};
            {| default := None; icon := "fa-solid fa-plug";
               text := "Install"; href := Some "install.js";
               menu := None; confirm := None |};
            {| default := None; icon := "fa-regular fa-circle-xmark";
               text := "Reset"; href := Some "reset.js";
               menu := None;
               confirm := Some "Are you sure you wish to reset the app?" |} ]
  else
    ret [ {| default := Some true; icon := "fa-solid fa-plug";
             text := "Install"; href := Some "install.js";
             menu := None; confirm := None |} ].

End PinokioQuick.

(** ** Pipeline scripts *)

(** The [message] of a [shell.run] step is one command line or an array of
    them. *)
Inductive Message : Type :=
| One  (cmd : string)
| Many (cmds : list string).

(** A value of the configuration object handed to a delegated script. *)
Inductive Value : Type :=
| Str  (s : string)
| Flag (b : bool).

Record ShellParams : Type := MkShell {
  message : Message;
  venv    : option string;
  path    : option string
}.

Record StartParams : Type := MkStart {
  uri    : string;
  params : list (string * Value)
}.

Record LinkParams : Type := MkLink {
  drive : list (string * string);
  peers : list string
}.

(** A step of a [run] array, by its [method]. *)
Inductive Step : Type :=
| shell_run    (p : ShellParams)
| script_start (p : StartParams)
| fs_link      (p : LinkParams).

(** *** [src/unnamed/part_000]: the install pipeline *)

Module Install.

Definition run : list Step := [
  shell_run {|
    message := Many [
      "git clone https://github.com/comfyanonymous/ComfyUI app/comfyui";
      "git clone https://github.com/ltdrdata/ComfyUI-Manager app/comfyui/custom_nodes/ComfyUI-Manager";
      "git clone https://github.com/city96/ComfyUI-GGUF app/comfyui/custom_nodes/ComfyUI-GGUF";
      "git clone https://github.com/numz/ComfyUI-SeedVR2_VideoUpscaler app/comfyui/custom_nodes/ComfyUI-SeedVR2_VideoUpscaler";
      "git clone https://github.com/Kosinkadink/ComfyUI-VideoHelperSuite.git app/comfyui/custom_nodes/ComfyUI-VideoHelperSuite";
      "git clone https://github.com/ChangeTheConstants/SeedVarianceEnhancer.git app/comfyui/custom_nodes/SeedVarianceEnhancer";
      "git clone https://github.com/demon4932/CameraPromptsGenerator.git app/CameraPromptsGenerator"
    ];
    venv := None;
    path := None |};
  shell_run {|
    message := Many [
      "uv pip install -r comfyui/requirements.txt";
      "uv pip install -r requirements.txt";
      "uv pip install gguf>=0.13.0 sentencepiece protobuf";
      "uv pip install einops omegaconf>=2.3.0 diffusers>=0.33.1 peft>=0.17.0 rotary_embedding_torch>=0.5.3 opencv-python matplotlib imageio-ffmpeg"
    ];
    venv := Some "env";
    path := Some "app" |};
  script_start {|
    uri := "torch.js";
    params := [ ("venv", Str "env");
                ("path", Str "app");
                ("flashattention", Flag true);
                ("triton", Flag true);
                ("sageattention", Flag true) ] |};
  fs_link {|
    drive := [
      ("checkpoints", "app/comfyui/models/checkpoints");
      ("clip", "app/comfyui/models/clip");
      ("clip_vision", "app/comfyui/models/clip_vision");
      ("configs", "app/comfyui/models/configs");
      ("controlnet", "app/comfyui/models/controlnet");
      ("diffusers", "app/comfyui/models/diffusers");
      ("diffusion_models", "app/comfyui/models/diffusion_models");
      ("embeddings", "app/comfyui/models/embeddings");
      ("gligen", "app/comfyui/models/gligen");
      ("hypernetworks", "app/comfyui/models/hypernetworks");
      ("ipadapter", "app/comfyui/models/ipadapter");
      ("loras", "app/comfyui/models/loras");
      ("photomaker", "app/comfyui/models/photomaker");
      ("SEEDVR2", "app/comfyui/models/SEEDVR2");
      ("model_patches", "app/comfyui/models/model_patches");
      ("style_models", "app/comfyui/models/style_models");
      ("text_encoders", "app/comfyui/models/text_encoders");
      ("unet", "app/comfyui/models/unet");
      ("upscale_models", "app/comfyui/models/upscale_models");
      ("vae", "app/comfyui/models/vae");
      ("vae_approx", "app/comfyui/models/VAE-approx");
      ("output", "app/comfyui/output")
    ];
    peers := [
      "https://github.com/cocktailpeanut/fluxgym.git";
      "https://github.com/cocktailpeanutlabs/automatic1111.git";
      "https://github.com/cocktailpeanutlabs/fooocus.git";
      "https://github.com/cocktailpeanutlabs/comfyui.git";
      "https://github.com/pinokiofactory/comfy.git";
      "https://github.com/pinokiofactory/stable-diffusion-webui-forge.git"
    ] |}
].

End Install.

(** *** [src/unnamed/part_001]: the full-update pipeline *)

Module Update.

Definition run : list Step := [
  shell_run {|
    message := One "git pull";
    venv := None;
    path := None |};
  shell_run {|
    message := Many [
      "git -C comfyui pull || git clone https://github.com/comfyanonymous/ComfyUI.git comfyui";
      "git -C comfyui/custom_nodes/ComfyUI-Manager pull || git clone https://github.com/ltdrdata/ComfyUI-Manager.git comfyui/custom_nodes/ComfyUI-Manager";
      "git -C comfyui/custom_nodes/ComfyUI-GGUF pull || git clone https://github.com/city96/ComfyUI-GGUF.git comfyui/custom_nodes/ComfyUI-GGUF";
      "git -C comfyui/custom_nodes/ComfyUI-SeedVR2_VideoUpscaler pull || git clone https://github.com/SeedVR2/ComfyUI-SeedVR2_VideoUpscaler.git comfyui/custom_nodes/ComfyUI-SeedVR2_VideoUpscaler";
      "git -C comfyui/custom_nodes/ComfyUI-VideoHelperSuite pull || git clone https://github.com/Kosinkadink/ComfyUI-VideoHelperSuite.git comfyui/custom_nodes/ComfyUI-VideoHelperSuite";
      "git -C comfyui/custom_nodes/SeedVarianceEnhancer pull || git clone https://github.com/ChangeTheConstants/SeedVarianceEnhancer.git comfyui/custom_nodes/SeedVarianceEnhancer";
      "git -C CameraPromptsGenerator pull || git clone https://github.com/demon4932/CameraPromptsGenerator.git CameraPromptsGenerator"
    ];
    venv := None;
    path := Some "app" |};
  shell_run {|
    message := Many [
      "uv pip install -r comfyui/requirements.txt";
      "uv pip install -r requirements.txt";
      "uv pip install gguf>=0.13.0 sentencepiece protobuf";
      "uv pip install einops omegaconf>=2.3.0 diffusers>=0.33.1 peft>=0.17.0 rotary_embedding_torch>=0.5.3 opencv-python matplotlib imageio-ffmpeg"
    ];
    venv := Some "env";
    path := Some "app" |};
  script_start {|
    uri := "torch.js";
    params := [ ("venv", Str "env");
                ("path", Str "app") ] |}
].

End Update.

(** ** Reading the command lines *)

(** The words of a command line: maximal runs of characters other than the
    blank. *)
Fixpoint fields (s : string) : list string :=
  match s with
  | EmptyString => [""]
  | String c r =>
      if Ascii.eqb c " " then "" :: fields r
      else match fields r with
           | w :: ws => String c w :: ws
           | [] => [String c ""]
           end
  end.

Definition words (s : string) : list string :=
  filter (fun w => negb (w =? "")) (fields s).

(** A simple command, as far as the repository client is concerned. *)
Inductive Simple : Type :=
| GitClone (repo dest : string)
| GitPull  (dir : option string)
| Other    (argv : list string).

Definition simple_of (argv : list string) : Simple :=
  match argv with
  | ["git"; "clone"; repo; dest] => GitClone repo dest
  | ["git"; "-C"; dir; "pull"] => GitPull (Some dir)
  | ["git"; "pull"] => GitPull None
  | _ => Other argv
  end.

(** Splitting a word list at the [||] operators. *)
Fixpoint split_or (ws : list string) : list (list string) :=
  match ws with
  | [] => [[]]
  | w :: r =>
      if w =? "||" then [] :: split_or r
      else match split_or r with
           | a :: alts => (w :: a) :: alts
           | [] => [[w]]
           end
  end.

(** A command line is an or-list: each alternative runs only if all the
    preceding ones failed. *)
Definition parse (line : string) : list Simple :=
  map simple_of (split_or (words line)).

(** The pull-or-else-clone form: pull in a directory, or else clone into that
    same directory. *)
Definition pull_or_clone (line : string) : bool :=
  match parse line with
  | [GitPull (Some dir); GitClone _ dest] => dir =? dest
  | _ => false
  end.

(** A command line that manages an external repository: one that names the
    repository it clones. *)
Definition clones (line : string) : bool :=
  existsb (fun c => match c with GitClone _ _ => true | _ => false end)
          (parse line).

Definition lines (m : Message) : list string :=
  match m with
  | One cmd => [cmd]
  | Many cmds => cmds
  end.

(** A path given to a command, under the step's working directory. *)
Definition resolve (cwd : option string) (p : string) : string :=
  match cwd with
  | Some d => d ++ "/" ++ p
  | None => p
  end.

(** The working directory itself. *)
Definition here (cwd : option string) : string :=
  match cwd with
  | Some d => d
  | None => "."
  end.

(** The checkout a command line manages, relative to the launcher's
    directory: the clone destination under the step's working directory. *)
Definition checkout_of (cwd : option string) (line : string) : list string :=
  flat_map (fun c => match c with
                     | GitClone _ dest => [resolve cwd dest]
                     | _ => []
                     end)
           (parse line).

(** All command lines of a pipeline that manage an external repository,
    each with its step's working directory. *)
Definition repo_lines (pipeline : list Step) : list (option string * string) :=
  flat_map (fun s => match s with
                     | shell_run p =>
                         map (fun l => (path p, l))
                             (filter clones (lines (message p)))
                     | _ => []
                     end)
           pipeline.

Definition checkouts (pipeline : list Step) : list string :=
  flat_map (fun '(cwd, l) => checkout_of cwd l) (repo_lines pipeline).

(** ** Running an or-list against a repository client *)

Section Client.

(** The source control client is external: [pull] and [clone] report
    success or failure and leave the disk in some state. *)
Variable Disk : Type.
Variable pull  : string -> Disk -> bool * Disk.
Variable clone : string -> string -> Disk -> bool * Disk.
Variable other : list string -> Disk -> bool * Disk.

Definition exec_simple (cwd : option string) (c : Simple) (d : Disk)
  : bool * Disk :=
  match c with
  | GitClone repo dest => clone repo (resolve cwd dest) d
  | GitPull (Some dir) => pull (resolve cwd dir) d
  | GitPull None => pull (here cwd) d
  | Other argv => other argv d
  end.

(** [a || b || ...]: stop at the first alternative that succeeds; the
    status of the list is that of the last alternative run. *)
Fixpoint exec_or (cwd : option string) (alts : list Simple) (d : Disk)
  : bool * Disk :=
  match alts with
  | [] => (true, d)
  | [c] => exec_simple cwd c d
  | c :: rest =>
      let '(ok, d') := exec_simple cwd c d in
      if ok then (true, d') else exec_or cwd rest d'
  end.

Definition exec_line (cwd : option string) (line : string) (d : Disk)
  : bool * Disk :=
  exec_or cwd (parse line) d.

End Client.

(** The stub client of the idempotence test: the disk is the list of
    existing checkouts, [pull] succeeds exactly on an existing checkout,
    [clone] fails on one and creates it otherwise. *)
Module Stub.

Definition Disk : Type := list string.

Definition has (p : string) (d : Disk) : bool := existsb (String.eqb p) d.

Definition pull (p : string) (d : Disk) : bool * Disk := (has p d, d).

Definition clone (repo p : string) (d : Disk) : bool * Disk :=
  if has p d then (false, d) else (true, p :: d).

Definition other (argv : list string) (d : Disk) : bool * Disk := (true, d).

Definition exec_line : option string -> string -> Disk -> bool * Disk :=
  exec_line Disk pull clone other.

End Stub.

(** ** The shape of pipeline steps *)

Definition step_lines (s : Step) : list string :=
  match s with
  | shell_run p => lines (message p)
  | _ => []
  end.

(** A repository step: a shell step outside the isolated environment whose
    command lines are all of the pull-or-else-clone form. *)
Definition pull_or_clone_step (s : Step) : bool :=
  match s with
  | shell_run p =>
      match venv p, lines (message p) with
      | None, _ :: _ => forallb pull_or_clone (lines (message p))
      | _, _ => false
      end
  | _ => false
  end.

Definition installs (line : string) : bool :=
  match words line with
  | "uv" :: "pip" :: "install" :: _ :: _ => true
  | _ => false
  end.

(** A dependency-install step: a shell step inside an isolated environment
    whose command lines all install a requirement set. *)
Definition dependency_step (s : Step) : bool :=
  match s with
  | shell_run p =>
      match venv p, lines (message p) with
      | Some _, _ :: _ => forallb installs (lines (message p))
      | _, _ => false
      end
  | _ => false
  end.

(** A delegated step: it starts another script with a configuration. *)
Definition delegate_step (s : Step) : bool :=
  match s with
  | script_start _ => true
  | _ => false
  end.

(** ** Counting default entries *)

Definition is_default (i : MenuItem) : bool :=
  match default i with
  | Some true => true
  | _ => false
  end.

(** Entries marked default in a menu, at the top level. *)
Definition defaults (l : list MenuItem) : nat :=
  length (filter is_default l).

(** Entries marked default anywhere in a menu, submenus included. *)
Fixpoint deep_defaults (i : MenuItem) : nat :=
  (if is_default i then 1 else 0) +
  match menu i with
  | Some sub => list_sum (map deep_defaults sub)
  | None => 0
  end.

Definition all_defaults (l : list MenuItem) : nat :=
  list_sum (map deep_defaults l).

(** ** What a state publishes *)

(** The start URL of a state: the [url] the start script has published, when
    it is one the menus accept (a non-empty string). *)
Definition start_url (info : Info) : option string :=
  match local info "start.js" with
  | Some l => if truthy (url l) then url l else None
  | None => None
  end.

(** The target of the entry marked default, if there is one. *)
Definition default_target (l : list MenuItem) : option string :=
  match filter is_default l with
  | i :: _ => href i
  | [] => None
  end.

(** An entry with a target and neither submenu nor confirmation. *)
Definition entry (dflt : option bool) (ic tx target : string) : MenuItem :=
  {| default := dflt; icon := ic; text := tx; href := Some target;
     menu := None; confirm := None |}.

(** The shape of the installed-and-idle menu: Start (default), a submenu of
    flagged starts, an Update submenu offering the quick and the full update,
    Install, and Reset behind a confirmation. *)
Definition idle_shape (l : list MenuItem) : bool :=
  match l with
  | [st; fl; up; ins; rs] =>
      is_default st && (text st =? "Start") &&
      (text fl =? "Start -w Optimization flags") &&
      match menu fl with Some (_ :: _) => true | _ => false end &&
      (text up =? "Update") &&
      match menu up with
      | Some [q; f] =>
          match href q, href f with
          | Some hq, Some hf => (hq =? "quick_update.js") && (hf =? "update.js")
          | _, _ => false
          end
      | _ => false
      end &&
      (text ins =? "Install") &&
      (text rs =? "Reset") &&
      match confirm rs with Some _ => true | None => false end
  | _ => false
  end.

(** ** Concrete states *)

Definition only (name : string) : string -> bool := fun s => s =? name.

Definition nothing : string -> bool := fun _ => false.

Definition no_local : string -> option Local := fun _ => None.

Definition serving (u : string) : string -> option Local :=
  fun s => if s =? "start.js" then Some (MkLocal (Some u)) else None.

Definition noon : nat -> Z := fun k => (1700000000000 + Z.of_nat k)%Z.

Definition later : nat -> Z := fun k => (1700000000001 + Z.of_nat k)%Z.

(** Installed, nothing running. *)
Definition idle : Info := MkInfo (only "app/env") nothing no_local.

(** Not installed, nothing running. *)
Definition pristine : Info := MkInfo nothing nothing no_local.

(** Installed and started, with a published URL. *)
Definition started : Info :=
  MkInfo (only "app/env") (only "start.js") (serving "http://localhost:7860").

(** As [started], while the install script runs as well. *)
Definition started_installing : Info :=
  MkInfo (only "app/env")
         (fun s => (s =? "start.js") || (s =? "install.js"))
         (serving "http://localhost:7860").

(** Installed, with both update scripts reported running. *)
Definition both_updates : Info :=
  MkInfo (only "app/env")
         (fun s => (s =? "update.js") || (s =? "quick_update.js"))
         no_local.

(** Installed, with only the quick update reported running. *)
Definition quick_updating : Info :=
  MkInfo (only "app/env") (only "quick_update.js") no_local.

(** ** Walking a menu *)

(** An entry together with the entries of its submenu, to any depth. *)
Fixpoint entries (i : MenuItem) : list MenuItem :=
  i :: match menu i with
       | Some sub => flat_map entries sub
       | None => []
       end.

Definition all_entries (l : list MenuItem) : list MenuItem :=
  flat_map entries l.

(** Every target a menu can dispatch, submenus included, in display order. *)
Definition targets (l : list MenuItem) : list string :=
  flat_map (fun e => match href e with
                     | Some h => [h]
                     | None => []
                     end)
           (all_entries l).

(** The script a target names: the target up to its query string. *)
Fixpoint script_part (h : string) : string :=
  match h with
  | EmptyString => EmptyString
  | String c r => if Ascii.eqb c "?" then EmptyString
                  else String c (script_part r)
  end.

(** Whether an entry that has a target points at one of the given scripts. *)
Definition points_into (scripts : list string) (e : MenuItem) : bool :=
  match href e with
  | Some h => existsb (String.eqb (script_part h)) scripts
  | None => true
  end.

(** A leaf has a target and no submenu. *)
Definition leaf (e : MenuItem) : bool :=
  match href e, menu e with
  | Some _, None => true
  | _, _ => false
  end.

(** An entry is either a leaf, or a submenu without a target of its own
    whose entries are leaves that are neither default nor confirmed. *)
Definition well_formed (e : MenuItem) : bool :=
  match href e, menu e with
  | Some _, None => true
  | None, Some (c :: sub) =>
      forallb (fun x => leaf x &&
                        match default x, confirm x with
                        | None, None => true
                        | _, _ => false
                        end)
              (c :: sub)
  | _, _ => false
  end.

(** The confirmation discipline: an entry labelled "Reset" asks for
    confirmation, and an entry that asks for one is not the default and
    points at [reset.js]. *)
Definition confirm_ok (e : MenuItem) : bool :=
  match confirm e with
  | Some _ =>
      negb (is_default e) &&
      match href e with
      | Some h => h =? "reset.js"
      | None => false
      end
  | None => negb (text e =? "Reset")
  end.

(** What an entry shows, as opposed to what it dispatches. *)
Definition face (e : MenuItem) : option bool * string * string :=
  (default e, icon e, text e).

(** ** Running shell steps against a repository client *)

Section Steps.

Variable Disk : Type.
Variable pull  : string -> Disk -> bool * Disk.
Variable clone : string -> string -> Disk -> bool * Disk.
Variable other : list string -> Disk -> bool * Disk.

(** The command lines of a [shell.run] message run in order, each only if
    the one before succeeded. *)
Fixpoint exec_lines (cwd : option string) (ls : list string) (d : Disk)
  : bool * Disk :=
  match ls with
  | [] => (true, d)
  | l :: rest =>
      let '(ok, d') := exec_line Disk pull clone other cwd l d in
      if ok then exec_lines cwd rest d' else (false, d')
  end.

Definition exec_shell (p : ShellParams) (d : Disk) : bool * Disk :=
  exec_lines (path p) (lines (message p)) d.

End Steps.

Definition stub_lines : option string -> list string -> Stub.Disk -> bool * Stub.Disk :=
  exec_lines Stub.Disk Stub.pull Stub.clone Stub.other.

Definition stub_shell : ShellParams -> Stub.Disk -> bool * Stub.Disk :=
  exec_shell Stub.Disk Stub.pull Stub.clone Stub.other.

(** The parameters of the [k]-th step of a pipeline when it is a shell step,
    an empty message otherwise. *)
Definition shell_at (pipeline : list Step) (k : nat) : ShellParams :=
  match nth_error pipeline k with
  | Some (shell_run p) => p
  | _ => {| message := Many []; venv := None; path := None |}
  end.

(** ** The environment a step works in *)

Fixpoint lookup (k : string) (kv : list (string * Value)) : option Value :=
  match kv with
  | [] => None
  | (k', v) :: rest => if k =? k' then Some v else lookup k rest
  end.

(** The isolated environment a step names, as a path from the launcher's
    directory: [venv] under [path], for a shell step and for the
    configuration of a delegated script alike. *)
Definition env_of (s : Step) : option string :=
  match s with
  | shell_run p =>
      match venv p with
      | Some v => Some (resolve (path p) v)
      | None => None
      end
  | script_start p =>
      match lookup "venv" (params p) with
      | Some (Str v) =>
          Some (resolve (match lookup "path" (params p) with
                         | Some (Str d) => Some d
                         | _ => None
                         end) v)
      | _ => None
      end
  | fs_link _ => None
  end.



(** A bare clone: the line is a single [git clone]. *)
Definition bare_clone (line : string) : bool :=
  match parse line with
  | [GitClone _ _] => true
  | _ => false
  end.

(** * Properties *)

(** ** Printing the clock *)

Lemma to_int_proper (z : Z) :
  Z.to_int z <> Decimal.Pos Decimal.Nil /\ Z.to_int z <> Decimal.Neg Decimal.Nil.
Proof.
  destruct z as [|p|p]; simpl; split; try discriminate;
    intros [= E]; exact (DecimalPos.Unsigned.to_uint_nonnil p E).
Qed.

Lemma num_to_str_inj (a b : Z) : num_to_str a = num_to_str b -> a = b.
Proof.
  unfold num_to_str. intros E.
  apply DecimalZ.to_int_inj.
  destruct (to_int_proper a) as [Ha1 Ha2], (to_int_proper b) as [Hb1 Hb2].
  pose proof (NilZero.isi _ Ha1 Ha2) as Pa.
  pose proof (NilZero.isi _ Hb1 Hb2) as Pb.
  rewrite E in Pa. congruence.
Qed.

Lemma append_cancel (p a b : string) : p ++ a = p ++ b -> a = b.
Proof.
  induction p as [|c p IH]; simpl; intros E.
  - exact E.
  - injection E as E. auto.
Qed.

Lemma stamped_differ (p : string) (a b : Z) :
  a <> b -> p ++ num_to_str a <> p ++ num_to_str b.
Proof.
  intros N E. apply N, num_to_str_inj, (append_cancel p), E.
Qed.

Example num_to_str_now : num_to_str 1700000000000 = "1700000000000".
Proof. reflexivity. Qed.

Example num_to_str_zero : num_to_str 0 = "0".
Proof. reflexivity. Qed.

Example num_to_str_neg : num_to_str (-42) = "-42".
Proof. reflexivity. Qed.

(** ** The menus *)

(** Case analysis on everything a menu reads from [info]. *)
Ltac read_info info :=
  unfold returned, run_js, Pinokio.menu, PinokioQuick.menu, start_url; cbn;
  destruct (running info "install.js") eqn:?,
           (exists_ info "app/env") eqn:?,
           (running info "start.js") eqn:?,
           (running info "update.js") eqn:?,
           (running info "quick_update.js") eqn:?,
           (running info "reset.js") eqn:?; cbn;
  try discriminate.

Ltac read_local info :=
  let u := fresh "u" in
  destruct (local info "start.js") as [[[u|]]|]; cbn;
  [ destruct (u =? "") eqn:?; cbn | | ].

(** Both menus return whatever they are given: neither throws. *)
Lemma menus_return (info : Info) (clk : nat -> Z) :
  (exists l, returned (Pinokio.menu info) clk = Some l) /\
  (exists l, returned (PinokioQuick.menu info) clk = Some l).
Proof.
  split; read_info info; try (eexists; reflexivity);
    read_local info; eexists; reflexivity.
Qed.

(** C6. While the install script runs, whatever the installed marker and the
    other running flags say, either menu returns exactly one entry: the
    default "Installing" entry, pointing at [install.js]. *)
Theorem installing_alone (info : Info) (clk : nat -> Z) :
  running info "install.js" = true ->
  returned (Pinokio.menu info) clk
    = Some [entry (Some true) "fa-solid fa-plug" "Installing" "install.js"] /\
  returned (PinokioQuick.menu info) clk
    = Some [entry (Some true) "fa-solid fa-plug" "Installing" "install.js"].
Proof.
  intros H.
  unfold returned, run_js, Pinokio.menu, PinokioQuick.menu; cbn.
  rewrite H. split; reflexivity.
Qed.

Lemma installing_alone_witness :
  returned (Pinokio.menu started_installing) noon
    = Some [entry (Some true) "fa-solid fa-plug" "Installing" "install.js"] /\
  returned (PinokioQuick.menu started_installing) noon
    = Some [entry (Some true) "fa-solid fa-plug" "Installing" "install.js"].
Proof.
  apply (installing_alone started_installing noon). reflexivity.
Defined.

(** C7. Not installed and no install running: either menu returns exactly one
    entry, the default "Install", whatever the start, update, quick-update
    and reset flags say. *)
Theorem not_installed_offers_install (info : Info) (clk : nat -> Z) :
  exists_ info "app/env" = false ->
  running info "install.js" = false ->
  returned (Pinokio.menu info) clk
    = Some [entry (Some true) "fa-solid fa-plug" "Install" "install.js"] /\
  returned (PinokioQuick.menu info) clk
    = Some [entry (Some true) "fa-solid fa-plug" "Install" "install.js"].
Proof.
  intros E I.
  unfold returned, run_js, Pinokio.menu, PinokioQuick.menu; cbn.
  rewrite E, I. split; reflexivity.
Qed.

Lemma not_installed_offers_install_witness :
  returned (Pinokio.menu (MkInfo nothing (only "start.js") no_local)) noon
    = Some [entry (Some true) "fa-solid fa-plug" "Install" "install.js"] /\
  returned (PinokioQuick.menu (MkInfo nothing (only "start.js") no_local)) noon
    = Some [entry (Some true) "fa-solid fa-plug" "Install" "install.js"].
Proof.
  apply (not_installed_offers_install
           (MkInfo nothing (only "start.js") no_local) noon);
    reflexivity.
Defined.

(** C9. For every installed marker, every combination of running flags and
    whether or not a start URL is published, either menu returns a list with
    at least one entry. *)
Theorem menu_nonempty (info : Info) (clk : nat -> Z) :
  (exists l, returned (Pinokio.menu info) clk = Some l /\ l <> []) /\
  (exists l, returned (PinokioQuick.menu info) clk = Some l /\ l <> []).
Proof.
  split; read_info info;
    try (eexists; split; [reflexivity | discriminate]);
    read_local info; eexists; split; try reflexivity; discriminate.
Qed.

(** C5. For every input, the list either menu returns has at most one entry
    marked default (also when submenus are counted), and exactly one when
    the installed marker exists. *)
Theorem one_default (info : Info) (clk : nat -> Z) :
  (exists l, returned (Pinokio.menu info) clk = Some l /\
             defaults l <= 1 /\ all_defaults l <= 1 /\
             (exists_ info "app/env" = true -> defaults l = 1)) /\
  (exists l, returned (PinokioQuick.menu info) clk = Some l /\
             defaults l <= 1 /\ all_defaults l <= 1 /\
             (exists_ info "app/env" = true -> defaults l = 1)).
Proof.
  split; read_info info;
    try (eexists; split; [reflexivity | cbn; auto]);
    read_local info; eexists; split; try reflexivity; cbn; auto.
Qed.

Lemma one_default_witness :
  (exists l, returned (Pinokio.menu idle) noon = Some l /\ defaults l = 1) /\
  (exists l, returned (PinokioQuick.menu idle) noon = Some l /\ defaults l = 1).
Proof.
  destruct (one_default idle noon) as [[l1 [R1 [_ [_ D1]]]] [l2 [R2 [_ [_ D2]]]]].
  split.
  - exists l1. split; [exact R1 | apply D1; reflexivity].
  - exists l2. split; [exact R2 | apply D2; reflexivity].
Defined.

(** Every branch marks exactly one entry, so the count never drops to
    zero either. *)
Lemma exactly_one_default (info : Info) (clk : nat -> Z) :
  (exists l, returned (Pinokio.menu info) clk = Some l /\ defaults l = 1) /\
  (exists l, returned (PinokioQuick.menu info) clk = Some l /\ defaults l = 1).
Proof.
  split; read_info info;
    try (eexists; split; reflexivity);
    read_local info; eexists; split; reflexivity.
Qed.

(** C4. Installed, neither install nor start running, and both update scripts
    reported running at once: the quick-update-aware menu returns (it does
    not throw), the same for every clock, the single default "Updating"
    entry, and its target is the full update [update.js]. *)
Theorem both_updates_full_wins (info : Info) (clk : nat -> Z) :
  exists_ info "app/env" = true ->
  running info "install.js" = false ->
  running info "start.js" = false ->
  running info "update.js" = true ->
  running info "quick_update.js" = true ->
  returned (PinokioQuick.menu info) clk
    = Some [entry (Some true) "fa-solid fa-terminal" "Updating" "update.js"].
Proof.
  intros E I S U Q.
  unfold returned, run_js, PinokioQuick.menu; cbn.
  rewrite E, I, S, U. reflexivity.
Qed.

Lemma both_updates_full_wins_witness :
  returned (PinokioQuick.menu both_updates) noon
    = Some [entry (Some true) "fa-solid fa-terminal" "Updating" "update.js"].
Proof.
  apply (both_updates_full_wins both_updates noon); reflexivity.
Defined.

(** With only the quick update running, the entry points at it instead. *)
Example quick_update_alone :
  returned (PinokioQuick.menu quick_updating) noon
    = Some [entry (Some true) "fa-solid fa-terminal" "Updating" "quick_update.js"].
Proof. reflexivity. Qed.

(** What [Pinokio.menu] reads: the marker, four running flags and the
    variables of the start script.  Two [info] objects that agree on these
    give the same run, final clock state included. *)
Lemma pinokio_menu_reads (i j : Info) (clk : nat -> Z) :
  exists_ i "app/env" = exists_ j "app/env" ->
  running i "install.js" = running j "install.js" ->
  running i "start.js" = running j "start.js" ->
  running i "update.js" = running j "update.js" ->
  running i "reset.js" = running j "reset.js" ->
  local i "start.js" = local j "start.js" ->
  run_js (Pinokio.menu i) clk = run_js (Pinokio.menu j) clk.
Proof.
  intros E I S U R L.
  unfold run_js, Pinokio.menu; cbn.
  rewrite E, I, S, U, R, L. reflexivity.
Qed.

(** C10. [src/pinokio.js] never asks whether [quick_update.js] runs: two
    states that differ at most in that flag get identical menus. *)
Theorem quick_update_unobserved (i j : Info) (clk : nat -> Z) :
  (forall p, exists_ i p = exists_ j p) ->
  (forall s, local i s = local j s) ->
  (forall s, s <> "quick_update.js" -> running i s = running j s) ->
  returned (Pinokio.menu i) clk = returned (Pinokio.menu j) clk.
Proof.
  intros E L R. unfold returned.
  rewrite (pinokio_menu_reads i j clk); auto; apply R; discriminate.
Qed.

Lemma quick_update_unobserved_witness :
  returned (Pinokio.menu quick_updating) noon = returned (Pinokio.menu idle) noon.
Proof.
  apply (quick_update_unobserved quick_updating idle noon).
  - reflexivity.
  - reflexivity.
  - intros s N. unfold quick_updating, idle, only, nothing; simpl.
    apply String.eqb_neq, N.
Defined.

(** The other menu does observe it. *)
Example quick_update_observed :
  returned (PinokioQuick.menu quick_updating) noon
    <> returned (PinokioQuick.menu idle) noon.
Proof. discriminate. Qed.

(** C3, as stated, fails for [src/pinokio.js]: installed and idle, its third
    entry is a plain "Update" entry pointing at [update.js], not a submenu
    offering the quick and the full update. *)
Lemma pinokio_update_is_plain :
  exists_ idle "app/env" = true /\
  forallb (fun s => negb (running idle s))
          ["install.js"; "start.js"; "update.js"; "quick_update.js"; "reset.js"]
    = true /\
  option_map idle_shape (returned (Pinokio.menu idle) noon) = Some false /\
  option_map (fun l => nth_error l 2) (returned (Pinokio.menu idle) noon)
    = Some (Some (entry None "fa-solid fa-plug" "Update" "update.js")).
Proof. repeat split. Qed.

(** C3, amended.  Installed and no script running: the quick-update-aware
    menu returns the five entries Start (default, stamped with the clock), a
    submenu of flagged starts, an Update submenu offering "Quick Update" and
    "Full Update", Install, and Reset behind a confirmation; the menu of
    [src/pinokio.js] returns the same list except that its third entry is a
    plain Update entry pointing at the update script. *)
Theorem idle_menu (info : Info) (clk : nat -> Z) :
  exists_ info "app/env" = true ->
  running info "install.js" = false ->
  running info "start.js" = false ->
  running info "update.js" = false ->
  running info "reset.js" = false ->
  let start_ := entry (Some true) "fa-solid fa-power-off" "Start"
                      ("start.js?ts=" ++ num_to_str (clk 0)) in
  let flags :=
    {| default := None; icon := "fa-solid fa-power-off";
       text := "Start -w Optimization flags"; href := None;
       menu := Some [
         entry None "fa-solid fa-power-off"
               "<div><strong>Start</strong><br><div>+SageAttention2</div></div>"
               ("start.js?sage=true&ts=" ++ num_to_str (clk 1));
         entry None "fa-solid fa-power-off"
               "<div><strong>Start</strong><br><div>+FlashAttention2</div></div>"
               ("start.js?flash=true&ts=" ++ num_to_str (clk 2)) ];
       confirm := None |} in
  let updates :=
    {| default := None; icon := "fa-solid fa-plug";
       text := "Update"; href := None;
       menu := Some [
         entry None "fa-solid fa-bolt" "Quick Update (Git Pull only)"
               "quick_update.js";
         entry None "fa-solid fa-plug" "Full Update (Everything)"
               "update.js" ];
       confirm := None |} in
  let install_ := entry None "fa-solid fa-plug" "Install" "install.js" in
  let reset_ :=
    {| default := None; icon := "fa-regular fa-circle-xmark";
       text := "Reset"; href := Some "reset.js"; menu := None;
       confirm := Some "Are you sure you wish to reset the app?" |} in
  (running info "quick_update.js" = false ->
   returned (PinokioQuick.menu info) clk
     = Some [start_; flags; updates; install_; reset_] /\
   idle_shape [start_; flags; updates; install_; reset_] = true) /\
  returned (Pinokio.menu info) clk
    = Some [start_; flags;
            entry None "fa-solid fa-plug" "Update" "update.js";
            install_; reset_].
Proof.
  intros E I S U R.
  unfold returned, run_js, Pinokio.menu, PinokioQuick.menu; cbn.
  rewrite E, I, S, U, R; cbn.
  split; [intros Q; rewrite Q; cbn; split|]; reflexivity.
Qed.

Lemma idle_menu_witness :
  option_map idle_shape (returned (PinokioQuick.menu idle) noon) = Some true /\
  option_map (@length MenuItem) (returned (Pinokio.menu idle) noon) = Some 5.
Proof.
  destruct (idle_menu idle noon) as [Q P]; try reflexivity.
  destruct Q as [Q _]; [reflexivity|].
  rewrite Q, P. split; reflexivity.
Defined.

(** C1, as stated, fails in both menus: installed, started and serving a URL,
    but with the install script running too, the menu is the single
    "Installing" entry. *)
Lemma started_but_installing :
  exists_ started_installing "app/env" = true /\
  running started_installing "start.js" = true /\
  start_url started_installing = Some "http://localhost:7860" /\
  returned (PinokioQuick.menu started_installing) noon
    = Some [entry (Some true) "fa-solid fa-plug" "Installing" "install.js"] /\
  returned (Pinokio.menu started_installing) noon
    = Some [entry (Some true) "fa-solid fa-plug" "Installing" "install.js"].
Proof. repeat split. Qed.

(** C1, amended.  Installed, started, and the install script not running.
    If a (non-empty) start URL is published, either menu returns exactly two
    entries, the default "Open Web UI" followed by a "Terminal" entry that
    is not default; in the quick-update-aware menu the target of the first
    is the URL followed by [?ts=] and the clock reading, so that evaluations
    whose clock readings differ give different targets.  If no URL is
    published, either menu returns only the "Terminal" entry. *)
Theorem started_menu (info : Info) (clk : nat -> Z) :
  running info "install.js" = false ->
  exists_ info "app/env" = true ->
  running info "start.js" = true ->
  (forall u, start_url info = Some u ->
     returned (PinokioQuick.menu info) clk
       = Some [entry (Some true) "fa-solid fa-rocket" "Open Web UI"
                     (u ++ "?ts=" ++ num_to_str (clk 0));
               entry None "fa-solid fa-terminal" "Terminal" "start.js"] /\
     (forall clk', clk 0 <> clk' 0 ->
        option_map default_target (returned (PinokioQuick.menu info) clk)
          <> option_map default_target (returned (PinokioQuick.menu info) clk')) /\
     (exists target,
        returned (Pinokio.menu info) clk
          = Some [entry (Some true) "fa-solid fa-rocket" "Open Web UI" target;
                  entry None "fa-solid fa-terminal" "Terminal" "start.js"])) /\
  (start_url info = None ->
     returned (PinokioQuick.menu info) clk
       = Some [entry (Some true) "fa-solid fa-terminal" "Terminal" "start.js"] /\
     returned (Pinokio.menu info) clk
       = Some [entry (Some true) "fa-solid fa-terminal" "Terminal" "start.js"]).
Proof.
  intros I E S.
  unfold returned, run_js, Pinokio.menu, PinokioQuick.menu, start_url; cbn.
  rewrite I, E, S; cbn.
  destruct (local info "start.js") as [[[v|]]|]; cbn;
    [destruct (v =? "") eqn:V; cbn | | ].
  2: { split; [intros u [= ->] | intros [=]].
       split; [reflexivity | split].
       - intros clk' N [= T]. apply append_cancel in T.
         exact (stamped_differ "?ts=" _ _ N T).
       - eexists; reflexivity. }
  all: split; [intros u [=] | intros _; split; reflexivity].
Qed.

Lemma started_menu_witness :
  returned (PinokioQuick.menu started) noon
    = Some [entry (Some true) "fa-solid fa-rocket" "Open Web UI"
                  "http://localhost:7860?ts=1700000000000";
            entry None "fa-solid fa-terminal" "Terminal" "start.js"] /\
  option_map default_target (returned (PinokioQuick.menu started) noon)
    <> option_map default_target (returned (PinokioQuick.menu started) later).
Proof.
  destruct (started_menu started noon) as [P _]; try reflexivity.
  destruct (P "http://localhost:7860") as [A [B _]]; [reflexivity|].
  split; [exact A | apply B; vm_compute; discriminate].
Defined.

(** For the record, the target [src/pinokio.js] gives "Open Web UI" is the
    published URL as it stands, whatever the clock. *)
Example pinokio_open_target :
  option_map default_target (returned (Pinokio.menu started) noon)
    = Some (Some "http://localhost:7860") /\
  option_map default_target (returned (Pinokio.menu started) later)
    = Some (Some "http://localhost:7860").
Proof. split; reflexivity. Qed.

(** An empty [url] counts as none. *)
Example empty_url_is_none :
  returned (PinokioQuick.menu
              (MkInfo (only "app/env") (only "start.js") (serving ""))) noon
    = Some [entry (Some true) "fa-solid fa-terminal" "Terminal" "start.js"].
Proof. reflexivity. Qed.

(** End-to-end: the fresh state offers Install alone, a running reset shows
    "Resetting" alone. *)
Example fresh_menu :
  returned (PinokioQuick.menu pristine) noon
    = Some [entry (Some true) "fa-solid fa-plug" "Install" "install.js"].
Proof. reflexivity. Qed.

Example resetting_menu :
  returned (PinokioQuick.menu (MkInfo (only "app/env") (only "reset.js") no_local))
           noon
    = Some [entry (Some true) "fa-solid fa-terminal" "Resetting" "reset.js"].
Proof. reflexivity. Qed.

(** ** The pipelines *)

(** Whatever the client, a pull-or-else-clone line runs the clone exactly
    when the pull has failed, on the disk the pull left behind, and then
    reports what the clone reports. *)
Lemma fallback_on_failure (Disk : Type)
      (pull : string -> Disk -> bool * Disk)
      (clone : string -> string -> Disk -> bool * Disk)
      (other : list string -> Disk -> bool * Disk)
      (cwd : option string) (dir repo dest : string) (d : Disk) :
  exec_or Disk pull clone other cwd [GitPull (Some dir); GitClone repo dest] d
    = if fst (pull (resolve cwd dir) d)
      then (true, snd (pull (resolve cwd dir) d))
      else clone repo (resolve cwd dest) (snd (pull (resolve cwd dir) d)).
Proof.
  cbn -[resolve]. destruct (pull (resolve cwd dir) d) as [[|] d']; reflexivity.
Qed.

(** Against the stub client a command line of the pull-or-else-clone form
    succeeds from every disk, and leaves its checkout in place: it can be run
    again and again. *)
Lemma pull_or_clone_succeeds (line : string) (cwd : option string)
      (d : Stub.Disk) :
  pull_or_clone line = true ->
  exists d', Stub.exec_line cwd line d = (true, d') /\
             forallb (fun p => Stub.has p d') (checkout_of cwd line) = true.
Proof.
  unfold pull_or_clone, Stub.exec_line, exec_line, checkout_of.
  destruct (parse line) as [|[| [dir|] |] [|[repo dest| |] [|]]];
    try discriminate.
  intros H. apply String.eqb_eq in H. subst dest. cbn -[resolve].
  unfold Stub.pull, Stub.clone.
  destruct (Stub.has (resolve cwd dir) d) eqn:Hd.
  - exists d. split; [reflexivity|].
    cbn -[resolve]. rewrite Hd. reflexivity.
  - eexists. split; [reflexivity|].
    cbn -[resolve]. rewrite String.eqb_refl. reflexivity.
Qed.

Lemma pull_or_clone_twice (line : string) (cwd : option string)
      (d : Stub.Disk) :
  pull_or_clone line = true ->
  fst (Stub.exec_line cwd line d) = true /\
  fst (Stub.exec_line cwd line (snd (Stub.exec_line cwd line d))) = true.
Proof.
  intros H.
  destruct (pull_or_clone_succeeds line cwd d H) as [d1 [E1 _]].
  destruct (pull_or_clone_succeeds line cwd d1 H) as [d2 [E2 _]].
  rewrite E1. simpl. rewrite E2. auto.
Qed.

(** A bare clone fails against the stub client once its checkout exists. *)
Lemma clone_fails_on_checkout (repo dest : string) (cwd : option string)
      (d : Stub.Disk) :
  Stub.has (resolve cwd dest) d = true ->
  exec_or Stub.Disk Stub.pull Stub.clone Stub.other cwd [GitClone repo dest] d
    = (false, d).
Proof.
  intros H. simpl. unfold Stub.clone. rewrite H. reflexivity.
Qed.

(** C2.  The update pipeline manages each of the seven external
    repositories by a pull-or-else-clone line.  The install pipeline manages
    the same seven checkouts, and none of its lines is of that form: each is
    a bare clone, which, once the checkouts exist, fails where the update
    pipeline's line succeeds. *)
Theorem install_clones_without_pull :
  forallb (fun '(_, l) => pull_or_clone l) (repo_lines Update.run) = true /\
  forallb (fun '(_, l) => negb (pull_or_clone l)) (repo_lines Install.run)
    = true /\
  map (fun '(_, l) => parse l) (repo_lines Install.run)
    = [ [GitClone "https://github.com/comfyanonymous/ComfyUI" "app/comfyui"];
        [GitClone "https://github.com/ltdrdata/ComfyUI-Manager"
                  "app/comfyui/custom_nodes/ComfyUI-Manager"];
        [GitClone "https://github.com/city96/ComfyUI-GGUF"
                  "app/comfyui/custom_nodes/ComfyUI-GGUF"];
        [GitClone "https://github.com/numz/ComfyUI-SeedVR2_VideoUpscaler"
                  "app/comfyui/custom_nodes/ComfyUI-SeedVR2_VideoUpscaler"];
        [GitClone "https://github.com/Kosinkadink/ComfyUI-VideoHelperSuite.git"
                  "app/comfyui/custom_nodes/ComfyUI-VideoHelperSuite"];
        [GitClone "https://github.com/ChangeTheConstants/SeedVarianceEnhancer.git"
                  "app/comfyui/custom_nodes/SeedVarianceEnhancer"];
        [GitClone "https://github.com/demon4932/CameraPromptsGenerator.git"
                  "app/CameraPromptsGenerator"] ] /\
  checkouts Install.run = checkouts Update.run /\
  map (fun '(cwd, l) => fst (Stub.exec_line cwd l (checkouts Install.run)))
      (repo_lines Install.run)
    = [false; false; false; false; false; false; false] /\
  map (fun '(cwd, l) => fst (Stub.exec_line cwd l (checkouts Install.run)))
      (repo_lines Update.run)
    = [true; true; true; true; true; true; true].
Proof. repeat split; vm_compute; reflexivity. Qed.

(** C8, as stated, fails: the update pipeline does not open with a
    pull-or-else-clone step.  Its first step is a bare [git pull] in the
    launcher's own directory, so the pipeline is not a run of
    pull-or-else-clone steps followed by the dependency step and the
    bootstrap step. *)
Lemma update_opens_with_bare_pull :
  hd_error Update.run
    = Some (shell_run {| message := One "git pull";
                         venv := None; path := None |}) /\
  option_map pull_or_clone_step (hd_error Update.run) = Some false /\
  ~ (exists repos dep boot,
       Update.run = (repos ++ [dep; boot])%list /\
       forallb pull_or_clone_step repos = true /\
       dependency_step dep = true /\
       delegate_step boot = true).
Proof.
  split; [reflexivity | split; [reflexivity|]].
  intros [repos [dep [boot [E [R _]]]]].
  destruct repos as [|s repos].
  - discriminate E.
  - injection E as Es _. subst s. discriminate R.
Qed.

(** C8, amended.  The full-update pipeline is, in this order: a bare pull of
    the launcher's own checkout; one step of pull-or-else-clone lines, one
    for each of the seven managed repositories; one dependency step that
    installs four requirement sets, in a fixed order, inside the isolated
    environment [env]; the delegated bootstrap [torch.js]; and nothing
    more. *)
Theorem update_pipeline_shape :
  exists self repos deps boot,
    Update.run = [self; repos; deps; boot] /\
    self = shell_run {| message := One "git pull";
                        venv := None; path := None |} /\
    map parse (step_lines self) = [[GitPull None]] /\
    pull_or_clone_step repos = true /\
    checkouts [repos]
      = [ "app/comfyui";
          "app/comfyui/custom_nodes/ComfyUI-Manager";
          "app/comfyui/custom_nodes/ComfyUI-GGUF";
          "app/comfyui/custom_nodes/ComfyUI-SeedVR2_VideoUpscaler";
          "app/comfyui/custom_nodes/ComfyUI-VideoHelperSuite";
          "app/comfyui/custom_nodes/SeedVarianceEnhancer";
          "app/CameraPromptsGenerator" ] /\
    dependency_step deps = true /\
    deps = shell_run {|
             message := Many [
               "uv pip install -r comfyui/requirements.txt";
               "uv pip install -r requirements.txt";
               "uv pip install gguf>=0.13.0 sentencepiece protobuf";
               "uv pip install einops omegaconf>=2.3.0 diffusers>=0.33.1 peft>=0.17.0 rotary_embedding_torch>=0.5.3 opencv-python matplotlib imageio-ffmpeg" ];
             venv := Some "env";
             path := Some "app" |} /\
    delegate_step boot = true /\
    boot = script_start {| uri := "torch.js";
                           params := [("venv", Str "env"); ("path", Str "app")] |}.
Proof.
  do 4 eexists. split; [reflexivity|].
  repeat split.
Qed.

(** The install pipeline runs the same dependency step, and goes on after
    the bootstrap to link the shared model folders. *)
Example install_pipeline_shape :
  map dependency_step Install.run = [false; true; false; false] /\
  nth_error Install.run 1 = nth_error Update.run 2 /\
  map delegate_step Install.run = [false; false; true; false] /\
  map pull_or_clone_step Install.run = [false; false; false; false].
Proof. repeat split. Qed.

(** ** More on the menus *)

(** What [PinokioQuick.menu] reads: as [Pinokio.menu], and the quick-update
    flag besides. *)
Lemma quick_menu_reads (i j : Info) (clk : nat -> Z) :
  exists_ i "app/env" = exists_ j "app/env" ->
  running i "install.js" = running j "install.js" ->
  running i "start.js" = running j "start.js" ->
  running i "update.js" = running j "update.js" ->
  running i "quick_update.js" = running j "quick_update.js" ->
  running i "reset.js" = running j "reset.js" ->
  local i "start.js" = local j "start.js" ->
  run_js (PinokioQuick.menu i) clk = run_js (PinokioQuick.menu j) clk.
Proof.
  intros E I S U Q R L.
  unfold run_js, PinokioQuick.menu; cbn.
  rewrite E, I, S, U, Q, R, L. reflexivity.
Qed.

(** X1. A running start script outranks update and reset: two installed
    states with no install running and the start script running, which
    publish the same variables, get the same menu whatever their update,
    quick-update and reset flags. *)
Theorem start_outranks_update_and_reset (i j : Info) (clk : nat -> Z) :
  exists_ i "app/env" = true -> exists_ j "app/env" = true ->
  running i "install.js" = false -> running j "install.js" = false ->
  running i "start.js" = true -> running j "start.js" = true ->
  local i "start.js" = local j "start.js" ->
  returned (Pinokio.menu i) clk = returned (Pinokio.menu j) clk /\
  returned (PinokioQuick.menu i) clk = returned (PinokioQuick.menu j) clk.
Proof.
  intros Ei Ej Ii Ij Si Sj L.
  unfold returned, run_js, Pinokio.menu, PinokioQuick.menu; cbn.
  rewrite Ei, Ej, Ii, Ij, Si, Sj, L. split; reflexivity.
Qed.

Lemma start_outranks_update_and_reset_witness :
  returned (Pinokio.menu
              (MkInfo (only "app/env")
                      (fun s => (s =? "start.js") || (s =? "reset.js"))
                      (serving "http://localhost:7860"))) noon
    = returned (Pinokio.menu started) noon /\
  returned (PinokioQuick.menu
              (MkInfo (only "app/env")
                      (fun s => (s =? "start.js") || (s =? "reset.js"))
                      (serving "http://localhost:7860"))) noon
    = returned (PinokioQuick.menu started) noon.
Proof.
  apply (start_outranks_update_and_reset
           (MkInfo (only "app/env")
                   (fun s => (s =? "start.js") || (s =? "reset.js"))
                   (serving "http://localhost:7860"))
           started noon); reflexivity.
Defined.

(** X2. Installed, neither install nor start running: as soon as one of the
    two update scripts runs, the quick-update-aware menu is the single
    default "Updating" entry, whatever the reset flag; it points at
    [update.js] when the full update runs and at [quick_update.js]
    otherwise.  The menu of [src/pinokio.js] does the same for the full
    update alone. *)
Theorem updating_outranks_reset (info : Info) (clk : nat -> Z) :
  exists_ info "app/env" = true ->
  running info "install.js" = false ->
  running info "start.js" = false ->
  (running info "update.js" || running info "quick_update.js" = true ->
   returned (PinokioQuick.menu info) clk
     = Some [entry (Some true) "fa-solid fa-terminal" "Updating"
                   (if running info "update.js" then "update.js"
                    else "quick_update.js")]) /\
  (running info "update.js" = true ->
   returned (Pinokio.menu info) clk
     = Some [entry (Some true) "fa-solid fa-terminal" "Updating" "update.js"]).
Proof.
  intros E I S.
  unfold returned, run_js, Pinokio.menu, PinokioQuick.menu; cbn.
  rewrite E, I, S; cbn. split; intros U; rewrite U; reflexivity.
Qed.

Lemma updating_outranks_reset_witness :
  returned (PinokioQuick.menu
              (MkInfo (only "app/env")
                      (fun s => (s =? "quick_update.js") || (s =? "reset.js"))
                      no_local)) noon
    = Some [entry (Some true) "fa-solid fa-terminal" "Updating"
                  "quick_update.js"] /\
  returned (Pinokio.menu
              (MkInfo (only "app/env")
                      (fun s => (s =? "update.js") || (s =? "reset.js"))
                      no_local)) noon
    = Some [entry (Some true) "fa-solid fa-terminal" "Updating" "update.js"].
Proof.
  split.
  - apply (updating_outranks_reset
             (MkInfo (only "app/env")
                     (fun s => (s =? "quick_update.js") || (s =? "reset.js"))
                     no_local) noon); reflexivity.
  - apply (updating_outranks_reset
             (MkInfo (only "app/env")
                     (fun s => (s =? "update.js") || (s =? "reset.js"))
                     no_local) noon); reflexivity.
Defined.

(** X3. Installed, with the reset script running and none of install, start
    and update: the menu of [src/pinokio.js] is the single default
    "Resetting" entry pointing at [reset.js]; so is the quick-update-aware
    menu when the quick update does not run either. *)
Theorem resetting_alone (info : Info) (clk : nat -> Z) :
  exists_ info "app/env" = true ->
  running info "install.js" = false ->
  running info "start.js" = false ->
  running info "update.js" = false ->
  running info "reset.js" = true ->
  returned (Pinokio.menu info) clk
    = Some [entry (Some true) "fa-solid fa-terminal" "Resetting" "reset.js"] /\
  (running info "quick_update.js" = false ->
   returned (PinokioQuick.menu info) clk
     = Some [entry (Some true) "fa-solid fa-terminal" "Resetting" "reset.js"]).
Proof.
  intros E I S U R.
  unfold returned, run_js, Pinokio.menu, PinokioQuick.menu; cbn.
  rewrite E, I, S, U, R; cbn. split; [|intros Q; rewrite Q]; reflexivity.
Qed.

Lemma resetting_alone_witness :
  returned (Pinokio.menu (MkInfo (only "app/env") (only "reset.js") no_local))
           noon
    = Some [entry (Some true) "fa-solid fa-terminal" "Resetting" "reset.js"] /\
  returned (PinokioQuick.menu
              (MkInfo (only "app/env") (only "reset.js") no_local)) noon
    = Some [entry (Some true) "fa-solid fa-terminal" "Resetting" "reset.js"].
Proof.
  destruct (resetting_alone
              (MkInfo (only "app/env") (only "reset.js") no_local) noon)
    as [P Q]; try reflexivity.
  split; [exact P | apply Q; reflexivity].
Defined.

Ltac each_entry :=
  cbn;
  repeat (apply Forall_cons;
          [first [right; reflexivity | left; reflexivity] |]);
  apply Forall_nil.

(** X4. Whatever the state, every entry of a returned menu, submenus
    included, that has a target points at a lifecycle script, possibly with
    a query string -- the one exception being "Open Web UI".  The menu of
    [src/pinokio.js] knows four scripts, the quick-update-aware menu adds
    [quick_update.js]. *)
Theorem targets_are_lifecycle_scripts (info : Info) (clk : nat -> Z) :
  (exists l, returned (Pinokio.menu info) clk = Some l /\
     Forall (fun e => text e = "Open Web UI" \/
                      points_into ["install.js"; "start.js"; "update.js";
                                   "reset.js"] e = true)
            (all_entries l)) /\
  (exists l, returned (PinokioQuick.menu info) clk = Some l /\
     Forall (fun e => text e = "Open Web UI" \/
                      points_into ["install.js"; "start.js"; "update.js";
                                   "quick_update.js"; "reset.js"] e = true)
            (all_entries l)).
Proof.
  split; read_info info;
    try (eexists; split; [reflexivity | solve [each_entry]]);
    read_local info; eexists; split; try reflexivity; each_entry.
Qed.

(** X5. Every entry of a returned menu is well formed: it has a target and
    no submenu, or no target and a non-empty submenu of plain leaves that
    are neither default nor confirmed.  Menus nest one level at most. *)
Theorem entries_well_formed (info : Info) (clk : nat -> Z) :
  (exists l, returned (Pinokio.menu info) clk = Some l /\
             forallb well_formed (all_entries l) = true) /\
  (exists l, returned (PinokioQuick.menu info) clk = Some l /\
             forallb well_formed (all_entries l) = true).
Proof.
  split; read_info info;
    try (eexists; split; reflexivity);
    read_local info; eexists; split; reflexivity.
Qed.

(** X6. Reset is never offered without asking: in every returned menu an
    entry labelled "Reset" carries a confirmation, and an entry that carries
    one is not the default and points at [reset.js]. *)
Theorem reset_asks_first (info : Info) (clk : nat -> Z) :
  (exists l, returned (Pinokio.menu info) clk = Some l /\
             forallb confirm_ok (all_entries l) = true) /\
  (exists l, returned (PinokioQuick.menu info) clk = Some l /\
             forallb confirm_ok (all_entries l) = true).
Proof.
  split; read_info info;
    try (eexists; split; reflexivity);
    read_local info; eexists; split; reflexivity.
Qed.

Lemma script_part_query (u q : string) :
  script_part (u ++ String "?" q) = script_part u.
Proof.
  induction u as [|c u IH]; simpl.
  - reflexivity.
  - destruct (Ascii.eqb c "?"); [reflexivity | now rewrite IH].
Qed.

(** X7. The clock reaches nothing but the query strings of targets: for
    every state, two evaluations at any two clocks return menus with the
    same entries in the same order -- same defaults, icons, labels and
    confirmations, submenus included -- whose targets name the same
    scripts. *)
Theorem clock_only_in_query (info : Info) (clk clk' : nat -> Z) :
  let view := fun l : list MenuItem =>
                (map (fun e => (face e, confirm e, option_map script_part (href e)))
                     (all_entries l)) in
  option_map view (returned (Pinokio.menu info) clk)
    = option_map view (returned (Pinokio.menu info) clk') /\
  option_map view (returned (PinokioQuick.menu info) clk)
    = option_map view (returned (PinokioQuick.menu info) clk').
Proof.
  split; read_info info; try reflexivity;
    read_local info; try reflexivity.
  all: unfold face; cbn; now rewrite !script_part_query.
Qed.

(** X8. The Start entry is stamped afresh: installed and idle, two
    evaluations whose first clock readings differ give the default entry
    different targets, in either menu. *)
Theorem start_target_fresh (info : Info) (clk clk' : nat -> Z) :
  exists_ info "app/env" = true ->
  running info "install.js" = false ->
  running info "start.js" = false ->
  running info "update.js" = false ->
  running info "reset.js" = false ->
  clk 0 <> clk' 0 ->
  option_map default_target (returned (Pinokio.menu info) clk)
    <> option_map default_target (returned (Pinokio.menu info) clk') /\
  (running info "quick_update.js" = false ->
   option_map default_target (returned (PinokioQuick.menu info) clk)
     <> option_map default_target (returned (PinokioQuick.menu info) clk')).
Proof.
  intros E I S U R N.
  unfold returned, run_js, Pinokio.menu, PinokioQuick.menu; cbn.
  rewrite E, I, S, U, R; cbn.
  split; [|intros Q; rewrite Q; cbn]; intros [= T];
    exact (stamped_differ "" _ _ N T).
Qed.

Lemma start_target_fresh_witness :
  option_map default_target (returned (Pinokio.menu idle) noon)
    <> option_map default_target (returned (Pinokio.menu idle) later) /\
  option_map default_target (returned (PinokioQuick.menu idle) noon)
    <> option_map default_target (returned (PinokioQuick.menu idle) later).
Proof.
  destruct (start_target_fresh idle noon later) as [P Q];
    try reflexivity; [vm_compute; discriminate|].
  split; [exact P | apply Q; reflexivity].
Defined.

Ltac all_distinct :=
  repeat (apply NoDup_cons; [cbn; intuition discriminate|]);
  apply NoDup_nil.

(** X9. Installed and idle, no two entries of the menu, submenus included,
    dispatch the same target, whatever the clock reads -- even when all its
    readings are equal. *)
Theorem idle_targets_distinct (info : Info) (clk : nat -> Z) :
  exists_ info "app/env" = true ->
  running info "install.js" = false ->
  running info "start.js" = false ->
  running info "update.js" = false ->
  running info "reset.js" = false ->
  (exists l, returned (Pinokio.menu info) clk = Some l /\
             length (targets l) = 6 /\ NoDup (targets l)) /\
  (running info "quick_update.js" = false ->
   exists l, returned (PinokioQuick.menu info) clk = Some l /\
             length (targets l) = 7 /\ NoDup (targets l)).
Proof.
  intros E I S U R.
  unfold returned, run_js, Pinokio.menu, PinokioQuick.menu; cbn.
  rewrite E, I, S, U, R; cbn.
  split; [|intros Q; rewrite Q; cbn];
    (eexists; split; [reflexivity | split; [reflexivity|]]);
    cbn; all_distinct.
Qed.

Lemma idle_targets_distinct_witness :
  (exists l, returned (Pinokio.menu idle) (fun _ => 0%Z) = Some l /\
             NoDup (targets l)) /\
  (exists l, returned (PinokioQuick.menu idle) (fun _ => 0%Z) = Some l /\
             NoDup (targets l)).
Proof.
  destruct (idle_targets_distinct idle (fun _ => 0%Z))
    as [[l1 [R1 [_ D1]]] Q]; try reflexivity.
  destruct Q as [l2 [R2 [_ D2]]]; [reflexivity|].
  split; [exists l1 | exists l2]; auto.
Defined.

(** X10. As long as the quick update does not run, the two menus show the
    same thing: for every state and any two clocks their top-level entries
    carry the same defaults, icons and labels, in the same order. *)
Theorem menus_show_the_same (info : Info) (clk clk' : nat -> Z) :
  running info "quick_update.js" = false ->
  option_map (map face) (returned (Pinokio.menu info) clk)
    = option_map (map face) (returned (PinokioQuick.menu info) clk').
Proof.
  intros Q. read_info info; try reflexivity;
    read_local info; reflexivity.
Qed.

Lemma menus_show_the_same_witness :
  option_map (map face) (returned (Pinokio.menu started) noon)
    = option_map (map face) (returned (PinokioQuick.menu started) later).
Proof.
  apply (menus_show_the_same started noon later). reflexivity.
Defined.

(** ** More on the pipelines *)

Lemma has_cons (p q : string) (d : Stub.Disk) :
  Stub.has p (q :: d) = (p =? q) || Stub.has p d.
Proof. reflexivity. Qed.

(** What a pull-or-else-clone line does to the stub client's disk: nothing
    when the checkout exists, and otherwise it adds the checkout. *)
Lemma pull_or_clone_effect (line : string) (cwd : option string)
      (d : Stub.Disk) :
  pull_or_clone line = true ->
  exists c, checkout_of cwd line = [c] /\
            Stub.exec_line cwd line d
              = (true, if Stub.has c d then d else c :: d).
Proof.
  unfold pull_or_clone, Stub.exec_line, exec_line, checkout_of.
  destruct (parse line) as [|[| [dir|] |] [|[repo dest| |] [|]]];
    try discriminate.
  intros H. apply String.eqb_eq in H. subst dest.
  exists (resolve cwd dir). split; [reflexivity|].
  cbn -[resolve]. unfold Stub.pull, Stub.clone.
  destruct (Stub.has (resolve cwd dir) d); reflexivity.
Qed.

Lemma lines_succeed (ls : list string) (cwd : option string) :
  forallb pull_or_clone ls = true ->
  forall d, exists d',
    stub_lines cwd ls d = (true, d') /\
    (forall p, Stub.has p d = true -> Stub.has p d' = true) /\
    forallb (fun c => Stub.has c d') (flat_map (checkout_of cwd) ls) = true.
Proof.
  induction ls as [|l ls IH]; intros F d.
  - exists d. repeat split; auto.
  - simpl in F. apply andb_prop in F. destruct F as [Fl Fls].
    destruct (pull_or_clone_effect l cwd d Fl) as [c [Hc He]].
    destruct (IH Fls (if Stub.has c d then d else c :: d))
      as [d' [Hr [Hg Ha]]].
    exists d'. split; [|split].
    + unfold stub_lines in *. simpl.
      unfold Stub.exec_line in He. rewrite He. exact Hr.
    + intros p Hp. apply Hg.
      destruct (Stub.has c d); [exact Hp|].
      rewrite has_cons, Hp. apply orb_true_r.
    + simpl. rewrite forallb_app, Ha, Hc. simpl.
      rewrite andb_true_r, andb_true_r. apply Hg.
      destruct (Stub.has c d) eqn:Hd; [exact Hd|].
      rewrite has_cons, String.eqb_refl. reflexivity.
Qed.

Lemma lines_settled (ls : list string) (cwd : option string)
      (d : Stub.Disk) :
  forallb pull_or_clone ls = true ->
  forallb (fun c => Stub.has c d) (flat_map (checkout_of cwd) ls) = true ->
  stub_lines cwd ls d = (true, d).
Proof.
  induction ls as [|l ls IH]; intros F A.
  - reflexivity.
  - simpl in F. apply andb_prop in F. destruct F as [Fl Fls].
    destruct (pull_or_clone_effect l cwd d Fl) as [c [Hc He]].
    simpl in A. rewrite forallb_app, Hc in A. simpl in A.
    apply andb_prop in A. destruct A as [A1 A2].
    rewrite andb_true_r in A1. rewrite A1 in He.
    unfold stub_lines in *. simpl.
    unfold Stub.exec_line in He. rewrite He. apply IH; assumption.
Qed.

(** X11. The repository step of the update pipeline can be run from any
    disk: against the stub client it succeeds whatever checkouts exist
    beforehand, removes none of them, leaves all seven managed checkouts in
    place, and run once more it succeeds again and changes nothing. *)
Theorem update_repos_idempotent (d : Stub.Disk) :
  exists d',
    stub_shell (shell_at Update.run 1) d = (true, d') /\
    (forall p, Stub.has p d = true -> Stub.has p d' = true) /\
    forallb (fun c => Stub.has c d') (checkouts Update.run) = true /\
    stub_shell (shell_at Update.run 1) d' = (true, d').
Proof.
  assert (F : forallb pull_or_clone
                      (lines (message (shell_at Update.run 1))) = true)
    by (vm_compute; reflexivity).
  destruct (lines_succeed _ (path (shell_at Update.run 1)) F d)
    as [d' [Hr [Hg Ha]]].
  exists d'. split; [exact Hr | split; [exact Hg | split]].
  - exact Ha.
  - apply lines_settled; assumption.
Qed.

(** What a bare clone does to the stub client's disk. *)
Lemma bare_clone_effect (line : string) (cwd : option string)
      (d : Stub.Disk) :
  bare_clone line = true ->
  exists c, checkout_of cwd line = [c] /\
            Stub.exec_line cwd line d
              = if Stub.has c d then (false, d) else (true, c :: d).
Proof.
  unfold bare_clone, Stub.exec_line, exec_line, checkout_of.
  destruct (parse line) as [|[repo dest| |] [|]]; try discriminate.
  intros _. exists (resolve cwd dest). split; reflexivity.
Qed.

Lemma clones_succeed (ls : list string) (cwd : option string) :
  forallb bare_clone ls = true ->
  NoDup (flat_map (checkout_of cwd) ls) ->
  forall d,
    forallb (fun c => negb (Stub.has c d)) (flat_map (checkout_of cwd) ls)
      = true ->
    exists d',
      stub_lines cwd ls d = (true, d') /\
      (forall p, Stub.has p d = true -> Stub.has p d' = true) /\
      forallb (fun c => Stub.has c d') (flat_map (checkout_of cwd) ls) = true.
Proof.
  induction ls as [|l ls IH]; intros F N d A.
  - exists d. repeat split; auto.
  - simpl in F. apply andb_prop in F. destruct F as [Fl Fls].
    destruct (bare_clone_effect l cwd d Fl) as [c [Hc He]].
    simpl in N, A. rewrite Hc in N, A. simpl in N, A.
    apply andb_prop in A. destruct A as [Ac A].
    apply negb_true_iff in Ac. rewrite Ac in He.
    inversion N as [|? ? Nc Nr]; subst.
    destruct (IH Fls Nr (c :: d)) as [d' [Hr [Hg Ha]]].
    + apply forallb_forall. intros x Hx.
      rewrite has_cons.
      rewrite forallb_forall in A. specialize (A x Hx).
      apply negb_true_iff in A. rewrite A, orb_false_r.
      apply negb_true_iff, String.eqb_neq. intros ->. exact (Nc Hx).
    + exists d'. split; [|split].
      * unfold stub_lines in *. simpl.
        unfold Stub.exec_line in He. rewrite He. exact Hr.
      * intros p Hp. apply Hg. rewrite has_cons, Hp. apply orb_true_r.
      * simpl. rewrite Hc. simpl. rewrite Ha, andb_true_r.
        apply Hg. rewrite has_cons, String.eqb_refl. reflexivity.
Qed.

(** X12. Install, then update.  From any disk that holds none of the seven
    managed checkouts, the clone step of the install pipeline succeeds
    against the stub client and creates all seven without removing
    anything; the repository step of the update pipeline, run on the disk
    it leaves, then succeeds and changes nothing. *)
Theorem install_then_update (d : Stub.Disk) :
  forallb (fun c => negb (Stub.has c d)) (checkouts Install.run) = true ->
  exists d',
    stub_shell (shell_at Install.run 0) d = (true, d') /\
    (forall p, Stub.has p d = true -> Stub.has p d' = true) /\
    forallb (fun c => Stub.has c d') (checkouts Install.run) = true /\
    stub_shell (shell_at Update.run 1) d' = (true, d').
Proof.
  intros A.
  assert (F : forallb bare_clone
                      (lines (message (shell_at Install.run 0))) = true)
    by (vm_compute; reflexivity).
  assert (N : NoDup (flat_map (checkout_of (path (shell_at Install.run 0)))
                              (lines (message (shell_at Install.run 0)))))
    by (cbn; all_distinct).
  destruct (clones_succeed _ _ F N d A) as [d' [Hr [Hg Ha]]].
  exists d'. split; [exact Hr | split; [exact Hg | split; [exact Ha|]]].
  apply lines_settled; [vm_compute; reflexivity | exact Ha].
Qed.

Lemma install_then_update_witness :
  exists d',
    stub_shell (shell_at Install.run 0) [] = (true, d') /\
    forallb (fun c => Stub.has c d') (checkouts Install.run) = true /\
    stub_shell (shell_at Update.run 1) d' = (true, d').
Proof.
  destruct (install_then_update []) as [d' [P [_ [Q R]]]];
    [vm_compute; reflexivity|].
  exists d'. auto.
Defined.

(** X13. Whatever the repository client, each repository line of the update
    pipeline pulls in the checkout it then names as clone destination: when
    that pull succeeds the line succeeds without cloning and leaves the disk
    as the pull left it; when it fails the line does what the clone does on
    the disk the pull left. *)
Theorem update_line_pulls_first (Disk : Type)
        (pull : string -> Disk -> bool * Disk)
        (clone : string -> string -> Disk -> bool * Disk)
        (other : list string -> Disk -> bool * Disk)
        (cwd : option string) (line : string) (d : Disk) :
  In (cwd, line) (repo_lines Update.run) ->
  exists dir repo,
    parse line = [GitPull (Some dir); GitClone repo dir] /\
    exec_line Disk pull clone other cwd line d
      = if fst (pull (resolve cwd dir) d)
        then (true, snd (pull (resolve cwd dir) d))
        else clone repo (resolve cwd dir) (snd (pull (resolve cwd dir) d)).
Proof.
  intros H. cbv [repo_lines Update.run flat_map lines message path app] in H.
  vm_compute in H.
  repeat (destruct H as [H|H];
          [injection H as <- <-; do 2 eexists;
           split; [vm_compute; reflexivity|];
           unfold exec_line;
           match goal with
           | |- exec_or _ _ _ _ _ (parse ?l) _ = _ =>
               let p := eval vm_compute in (parse l) in
               change (parse l) with p
           end;
           apply fallback_on_failure |]).
  contradiction.
Qed.

Lemma update_line_pulls_first_witness :
  exists dir repo,
    parse "git -C comfyui pull || git clone https://github.com/comfyanonymous/ComfyUI.git comfyui"
      = [GitPull (Some dir); GitClone repo dir] /\
    exec_line Stub.Disk Stub.pull Stub.clone Stub.other (Some "app")
              "git -C comfyui pull || git clone https://github.com/comfyanonymous/ComfyUI.git comfyui"
              ["app/comfyui"]
      = if fst (Stub.pull (resolve (Some "app") dir) ["app/comfyui"])
        then (true, snd (Stub.pull (resolve (Some "app") dir) ["app/comfyui"]))
        else Stub.clone repo (resolve (Some "app") dir)
                        (snd (Stub.pull (resolve (Some "app") dir)
                                        ["app/comfyui"])).
Proof.
  apply (update_line_pulls_first Stub.Disk Stub.pull Stub.clone Stub.other
           (Some "app")
           "git -C comfyui pull || git clone https://github.com/comfyanonymous/ComfyUI.git comfyui"
           ["app/comfyui"]).
  vm_compute. left. reflexivity.
Defined.

(** X14. The marker the menus test is the environment the pipelines build:
    every step of either pipeline that names an isolated environment names
    [app/env], and as long as that path does not exist and no install runs,
    either menu offers Install and nothing else. *)
Theorem install_offered_until_environment
        (info : Info) (clk : nat -> Z) (s : Step) (e : string) :
  In s (Install.run ++ Update.run)%list ->
  env_of s = Some e ->
  exists_ info e = false ->
  running info "install.js" = false ->
  returned (Pinokio.menu info) clk
    = Some [entry (Some true) "fa-solid fa-plug" "Install" "install.js"] /\
  returned (PinokioQuick.menu info) clk
    = Some [entry (Some true) "fa-solid fa-plug" "Install" "install.js"].
Proof.
  intros H He X I.
  assert (e = "app/env") as ->.
  { cbn in H.
    repeat (destruct H as [H|H];
            [subst s; cbn in He; first [discriminate He | now injection He] |]).
    contradiction. }
  unfold returned, run_js, Pinokio.menu, PinokioQuick.menu; cbn.
  rewrite X, I. split; reflexivity.
Qed.

Lemma install_offered_until_environment_witness :
  returned (Pinokio.menu pristine) noon
    = Some [entry (Some true) "fa-solid fa-plug" "Install" "install.js"] /\
  returned (PinokioQuick.menu pristine) noon
    = Some [entry (Some true) "fa-solid fa-plug" "Install" "install.js"].
Proof.
  apply (install_offered_until_environment pristine noon
           (shell_run (shell_at Update.run 2)) "app/env").
  - vm_compute. do 6 right. left. reflexivity.
  - reflexivity.
  - reflexivity.
  - reflexivity.
Defined.

